(** * OS Login security keys: a model of [oslogin-security-keys.py]

    The script fetches a login profile, writes every security key's private
    key to a file [google_sk_<index>] of a directory, restricts each file to
    mode 0600 and prints an [ssh] command line.  This development embeds the
    three functions of the script ([write_ssh_key_files], [ssh_command],
    [main]) over an explicit model of the Python values they handle and of
    the operating-system calls they make, and proves the properties listed
    in the specification. *)

From Stdlib Require Import Ascii String.
From stdpp Require Import base option list gmap strings pretty.

Set Warnings "-register-all".
Open Scope string_scope.
Open Scope list_scope.

(** ** Python values, exceptions and the builtins the script uses *)
Module Py.

(** The profile returned by the API client is decoded JSON: [None],
    booleans, integers, strings, lists and string-keyed dicts.
    (Floating-point numbers do not occur in a login profile and are left
    out.) *)
Inductive value :=
  | VNone
  | VBool (b : bool)
  | VInt (z : Z)
  | VStr (s : string)
  | VList (l : list value)
  | VDict (d : gmap string value).

(** The exceptions the script can meet.  [OSError] stands for the family
    raised by [open] and [os.chmod] ([FileNotFoundError],
    [PermissionError], [IsADirectoryError], ...), told apart by the message;
    [HttpError], [TransportError] and [DefaultCredentialsError] come from the
    API client.  [Unsupported] marks a use of a formatting feature that the
    model does not cover; the templates of the script never reach it. *)
Inductive exn :=
  | TypeError
  | AttributeError
  | IndexError
  | KeyError
  | ValueError
  | OSError (msg : string)
  | HttpError (status : Z)
  | TransportError (msg : string)
  | DefaultCredentialsError
  | Unsupported.

Inductive result (A : Type) :=
  | Ok (a : A)
  | Raise (e : exn).
Global Arguments Ok {A} a.
Global Arguments Raise {A} e.

Definition rbind {A B} (r : result A) (f : A → result B) : result B :=
  match r with
  | Ok a => f a
  | Raise e => Raise e
  end.

Definition rmap {A B} (f : A → B) (r : result A) : result B :=
  rbind r (λ a, Ok (f a)).

(** [bool(v)]: the truth value Python gives to [v]. *)
Definition truthy (v : value) : bool :=
  match v with
  | VNone => false
  | VBool b => b
  | VInt z => negb (Z.eqb z 0)
  | VStr s => negb (String.eqb s "")
  | VList l => match l with [] => false | _ => true end
  | VDict d => negb (bool_decide (d = ∅))
  end.

(** [v.get(k)]: only dicts have the method; a missing key gives [None]. *)
Definition get (v : value) (k : string) : result value :=
  match v with
  | VDict d => Ok (default VNone (d !! k))
  | _ => Raise AttributeError
  end.

Fixpoint chars (s : string) : list value :=
  match s with
  | EmptyString => []
  | String c s' => VStr (String c EmptyString) :: chars s'
  end.

(** [iter(v)]: the items a [for] loop (or [enumerate]) visits.  A string
    yields its characters and a dict its keys. *)
Definition iter (v : value) : result (list value) :=
  match v with
  | VList l => Ok l
  | VStr s => Ok (chars s)
  | VDict d => Ok (VStr <$> (map_to_list d).*1)
  | VNone | VBool _ | VInt _ => Raise TypeError
  end.

(** [v[i]] for a non-negative integer [i]. *)
Definition getitem (v : value) (i : nat) : result value :=
  match v with
  | VList l => match l !! i with Some x => Ok x | None => Raise IndexError end
  | VStr s => match chars s !! i with Some x => Ok x | None => Raise IndexError end
  | VDict _ => Raise KeyError
  | VNone | VBool _ | VInt _ => Raise TypeError
  end.

(** [sep.join(l)] on a list of strings. *)
Fixpoint join (sep : string) (l : list string) : string :=
  match l with
  | [] => ""
  | [s] => s
  | s :: l' => s +:+ sep +:+ join sep l'
  end.

Section Formatting.
(** [str(v)] of a list or a dict is its [repr], which quotes and escapes
    the strings inside; the script never formats a container, and the
    function is left as a parameter. *)
Variable repr_container : value → string.

(** [str(v)], which is also [format(v, '')] for these types. *)
Definition str (v : value) : string :=
  match v with
  | VNone => "None"
  | VBool true => "True"
  | VBool false => "False"
  | VInt z => pretty z
  | VStr s => s
  | VList _ | VDict _ => repr_container v
  end.

(** The value a replacement field names: [{}] takes the next positional
    argument, [{name}] the keyword argument [name]. *)
Definition field_value (args : list value) (kwargs : list (string * value))
    (name : string) (auto : nat) : result value :=
  if String.eqb name "" then
    match args !! auto with Some v => Ok v | None => Raise IndexError end
  else
    match List.find (λ kv, String.eqb kv.1 name) kwargs with
    | Some kv => Ok kv.2
    | None => Raise KeyError
    end.

Definition plain_name_char (c : ascii) : bool :=
  negb (Ascii.eqb c "!" || Ascii.eqb c ":" || Ascii.eqb c "." ||
        Ascii.eqb c "[" || Ascii.eqb c "{" ||
        (Ascii.leb "0" c && Ascii.leb c "9"))%bool.

(** [template.format(...)], with positional arguments [args] and keyword
    arguments [kwargs], for templates made of literal text,
    the escapes [{{] and [}}], and replacement fields [{}] and [{name}].
    [field] is [None] while literal text is read and holds the characters
    of the field name read so far inside braces. *)
Fixpoint format_go (args : list value) (kwargs : list (string * value))
    (t : string) (field : option string) (auto : nat) : result string :=
  match t with
  | EmptyString =>
      match field with None => Ok "" | Some _ => Raise ValueError end
  | String c t' =>
      match field with
      | Some name =>
          if Ascii.eqb c "}" then
            rbind (field_value args kwargs name auto) (λ v,
              rmap (String.append (str v))
                (format_go args kwargs t' None
                   (if String.eqb name "" then S auto else auto)))
          else if plain_name_char c then
            format_go args kwargs t' (Some (name +:+ String c "")) auto
          else Raise Unsupported
      | None =>
          if Ascii.eqb c "{" then
            match t' with
            | String c' t'' =>
                if Ascii.eqb c' "{"
                then rmap (String "{") (format_go args kwargs t'' None auto)
                else format_go args kwargs t' (Some "") auto
            | EmptyString => Raise ValueError
            end
          else if Ascii.eqb c "}" then
            match t' with
            | String c' t'' =>
                if Ascii.eqb c' "}"
                then rmap (String "}") (format_go args kwargs t'' None auto)
                else Raise ValueError
            | EmptyString => Raise ValueError
            end
          else rmap (String c) (format_go args kwargs t' None auto)
      end
  end.

Definition format (t : string) (args : list value)
    (kwargs : list (string * value)) : result string :=
  format_go args kwargs t None 0.

(** [template % arg] for a single non-tuple argument and templates made of
    literal text, [%%] and [%s].  [arg] is [None] once the argument has
    been used. *)
Fixpoint percent_go (t : string) (arg : option value) : result string :=
  match t with
  | EmptyString =>
      match arg with None => Ok "" | Some _ => Raise TypeError end
  | String c t' =>
      if Ascii.eqb c "%" then
        match t' with
        | String c' t'' =>
            if Ascii.eqb c' "s" then
              match arg with
              | Some v => rmap (String.append (str v)) (percent_go t'' None)
              | None => Raise TypeError
              end
            else if Ascii.eqb c' "%" then
              rmap (String "%") (percent_go t'' arg)
            else Raise Unsupported
        | EmptyString => Raise ValueError
        end
      else rmap (String c) (percent_go t' arg)
  end.

Definition percent (t : string) (arg : value) : result string :=
  percent_go t (Some arg).
End Formatting.

End Py.

(** ** The world outside the interpreter: files, standard output, the API *)
Module Os.
Import Py.

(** Permission bits, written as in the source: [octal 6 0 0] is [0o600]. *)
Definition octal (u g o : N) : N := (u * 64 + g * 8 + o)%N.

Definition newline : string := String (ascii_of_nat 10) "".

(** A regular file: its contents and its permission bits. *)
Record file := File { data : string; mode : N }.

(** The file-system calls of the script that took effect ([open], [f.write],
    [os.chmod]), in the order the script made them. *)
Inductive fs_call :=
  | Opened (path : string)
  | Wrote (path : string) (s : string)
  | Chmodded (path : string) (m : N).

(** What the script can change: the files, keyed by the path string they
    were opened with, the text written to standard output, and the record
    of the file-system calls made so far. *)
Record world := World {
  files : gmap string file;
  stdout : string;
  fs_log : list fs_call
}.

(** The OS Login client built by [googleapiclient.discovery.build]:
    [getLoginProfile name view] is the outcome of
    [users().getLoginProfile(name=name, view=view).execute()]. *)
Record service := Service { getLoginProfile : string → string → result value }.

(** What the script only reads.  Whether the operating system lets the
    process open a path for writing or change its mode (missing directory,
    permission denied, path is a directory, ...) is decided outside the
    script: [open_refused] and [chmod_refused] give the exception raised, if
    any, and do not change while the script runs. *)
Record platform := Platform {
  repr_container : value → string;
  home : string;
  umask : N;
  open_refused : string → option exn;
  chmod_refused : string → option exn;
  discovery_build : string → string → result service
}.

(** Computations that may change the world and may raise.  The world reached
    when an exception is raised is kept: nothing is undone. *)
Definition io (A : Type) : Type := world → result A * world.

Global Instance io_ret : MRet io := λ A a w, (Ok a, w).
Global Instance io_bind : MBind io := λ A B f m w,
  match m w with
  | (Ok a, w') => f a w'
  | (Raise e, w') => (Raise e, w')
  end.

(** A computation of the interpreter that does not touch the world. *)
Definition lift {A} (r : result A) : io A := λ w, (r, w).

(** [os.path.join(a, b)] of [posixpath]. *)
Fixpoint ends_with_slash (s : string) : bool :=
  match s with
  | EmptyString => false
  | String c EmptyString => Ascii.eqb c "/"
  | String _ s' => ends_with_slash s'
  end.

Definition starts_with_slash (s : string) : bool :=
  match s with
  | String c _ => Ascii.eqb c "/"
  | EmptyString => false
  end.

Definition path_join (a b : string) : string :=
  if starts_with_slash b then b
  else if (String.eqb a "" || ends_with_slash a)%bool then a +:+ b
  else a +:+ "/" +:+ b.

Section Calls.
Context (P : platform).

(** [os.path.expanduser('~')]. *)
Definition expanduser_tilde : string := home P.

(** [open(path, 'w')]: an existing file is truncated and keeps its mode, a
    new one is created empty with mode [0o666 & ~umask]. *)
Definition open_w (path : string) : io string := λ w,
  match open_refused P path with
  | Some e => (Raise e, w)
  | None =>
      let m := match files w !! path with
               | Some f => mode f
               | None => N.ldiff (octal 6 6 6) (umask P)
               end in
      (Ok path, World (<[path := File "" m]> (files w)) (stdout w)
                      (fs_log w ++ [Opened path]))
  end.

(** [f.write(v)] on a text file opened at [path]: only a string is
    accepted, and it is added at the end of the file.  Python may hold the
    text in a buffer until the file is closed; the [with] statement closes
    the file before the script looks at anything else, so the model adds
    the text at the call.  (A handle whose file is not there does not arise:
    the handle comes from [open_w].) *)
Definition file_write (path : string) (v : value) : io unit := λ w,
  match v with
  | VStr s =>
      match files w !! path with
      | Some f =>
          (Ok (), World (<[path := File (data f +:+ s) (mode f)]> (files w))
                        (stdout w) (fs_log w ++ [Wrote path s]))
      | None => (Raise ValueError, w)
      end
  | _ => (Raise TypeError, w)
  end.

(** [os.chmod(path, m)]. *)
Definition chmod (path : string) (m : N) : io unit := λ w,
  match chmod_refused P path with
  | Some e => (Raise e, w)
  | None =>
      match files w !! path with
      | Some f =>
          (Ok (), World (<[path := File (data f) m]> (files w)) (stdout w)
                        (fs_log w ++ [Chmodded path m]))
      | None => (Raise (OSError "No such file or directory"), w)
      end
  end.

(** [with open(path, 'w') as f: body]: the file is closed when the body
    ends, normally or by an exception, which then goes on to the caller;
    what the body wrote is in the file in both cases. *)
Definition with_open_w {A} (path : string) (body : string → io A) : io A :=
  f ← open_w path; body f.

(** [print(s)]. *)
Definition print (s : string) : io unit := λ w,
  (Ok (), World (files w) (stdout w +:+ s +:+ newline) (fs_log w)).

(** [googleapiclient.discovery.build(name, version)]. *)
Definition build (name version : string) : io service :=
  lift (discovery_build P name version).
End Calls.

End Os.

Import Py Os.

(** ** The script *)
Section Script.
Context (P : platform).

Local Abbreviation str := (Py.str (repr_container P)).
Local Abbreviation format := (Py.format (repr_container P)).
Local Abbreviation percent := (Py.percent (repr_container P)).

(** One turn of the loop of [write_ssh_key_files]: the file of the key at
    position [index] is opened, written and restricted, and its path is
    added to [key_files]. *)
Definition write_ssh_key_file (directory : string) (index : nat)
    (key : value) (key_files : list string) : io (list string) :=
  name ← lift (percent "google_sk_%s" (VInt (Z.of_nat index)));
  let key_file := path_join directory name in
  with_open_w P key_file (λ f,
    private_key ← lift (get key "privateKey");
    file_write f private_key;;
    chmod P key_file (octal 6 0 0);;
    mret (key_files ++ [key_file])).

(** [for index, key in enumerate(items)], from position [index] on. *)
Fixpoint write_ssh_key_loop (directory : string) (items : list value)
    (index : nat) (key_files : list string) : io (list string) :=
  match items with
  | [] => mret key_files
  | key :: items' =>
      key_files' ← write_ssh_key_file directory index key key_files;
      write_ssh_key_loop directory items' (S index) key_files'
  end.

(** Store the SSH key files. *)
Definition write_ssh_key_files (security_keys : value) (directory : string)
    : io (list string) :=
  items ← lift (iter security_keys);
  write_ssh_key_loop directory items 0 [].

(** Print the SSH command to connect to an IP address with security keys.
    [key_files] is the list of strings [write_ssh_key_files] returns. *)
Definition ssh_command (key_files : list string) (username ip_address : value)
    : io unit :=
  let parameters := join " " ((λ f, "-i " +:+ f) <$> key_files) in
  line ← lift (format "ssh {parameters} {username}@{ip_address}" []
                 [("parameters", VStr parameters);
                  ("username", username);
                  ("ip_address", ip_address)]);
  print line.

(** Configure SSH key files and print SSH command.  [directory] is [None]
    or a string, as [argparse] gives it. *)
Definition main (user_key ip_address : value) (directory : option string)
    : io unit :=
  let directory :=
    match directory with
    | Some d => if truthy (VStr d) then d
                else path_join (expanduser_tilde P) ".ssh"
    | None => path_join (expanduser_tilde P) ".ssh"
    end in
  oslogin ← build P "oslogin" "v1beta";
  name ← lift (format "users/{}" [user_key] []);
  profile ← lift (getLoginProfile oslogin name "SECURITY_KEY");
  security_keys ← lift (get profile "securityKeys");
  posix_accounts ← lift (get profile "posixAccounts");
  account ← lift (getitem posix_accounts 0);
  username ← lift (get account "username");
  key_files ← write_ssh_key_files security_keys directory;
  ssh_command key_files username ip_address.
End Script.

(** ** Names and paths of the key files *)

(** The file name and the path the script gives to the key at [index]. *)
Definition key_file_name (index : nat) : string :=
  "google_sk_" +:+ pretty (Z.of_nat index).

Definition key_file_path (directory : string) (index : nat) : string :=
  path_join directory (key_file_name index).

(** What [path_join] puts in front of a relative name. *)
Definition dir_prefix (directory : string) : string :=
  if (String.eqb directory "" || ends_with_slash directory)%bool
  then directory else directory +:+ "/".

(** The file a key is stored in, and the calls that store it. *)
Definition stored (s : string) : file := File s (octal 6 0 0).

Definition key_calls (path s : string) : list fs_call :=
  [Opened path; Wrote path s; Chmodded path (octal 6 0 0)].

(** The operating system lets the script open [path] and change its mode. *)
Definition accepts (P : platform) (path : string) : Prop :=
  open_refused P path = None ∧ chmod_refused P path = None.

(** [key] is a dict whose ['privateKey'] is the string [s]. *)
Definition private_key (key : value) (s : string) : Prop :=
  get key "privateKey" = Ok (VStr s).

(** The world after the keys [keys] have been stored from [index] on. *)
Fixpoint store_keys (directory : string) (index : nat) (keys : list string)
    (w : world) : world :=
  match keys with
  | [] => w
  | s :: keys' =>
      let path := key_file_path directory index in
      store_keys directory (S index) keys'
        (World (<[path := stored s]> (files w)) (stdout w)
               (fs_log w ++ key_calls path s))
  end.


(** The directory [main] writes to: the one given unless it is [None] or
    empty, [~/.ssh] otherwise. *)
Definition ssh_directory (P : platform) (directory : option string) : string :=
  match directory with
  | Some d => if truthy (VStr d) then d else path_join (expanduser_tilde P) ".ssh"
  | None => path_join (expanduser_tilde P) ".ssh"
  end.

(** The platform [P] with another API client behind [discovery.build]. *)
Definition with_build (P : platform)
    (build' : string → string → result service) : platform :=
  Platform (repr_container P) (home P) (umask P) (open_refused P)
           (chmod_refused P) build'.

(** The outcome of building the client and fetching the profile of
    [user_key]. *)
Definition fetch_profile (P : platform) (user_key : value) : result value :=
  rbind (discovery_build P "oslogin" "v1beta") (λ oslogin,
    getLoginProfile oslogin ("users/" +:+ str (repr_container P) user_key)
      "SECURITY_KEY").

(** The username [main] reads from a profile. *)
Definition first_username (profile : value) : result value :=
  rbind (get profile "posixAccounts") (λ posix_accounts,
    rbind (getitem posix_accounts 0) (λ account, get account "username")).


(** ** A sample platform

    A home directory [/home/u], umask 022, a directory [/locked] in which
    [google_sk_1] cannot be opened, and an API that knows the users [me]
    (two security keys, two POSIX accounts) and [nokeys] (no security key).
    The sample runs below are evaluated on it. *)
Module Sample.

Definition entry (private_key : string) : value :=
  VDict {[ "privateKey" := VStr private_key ]}.

Definition account (username : string) : gmap string value :=
  {[ "username" := VStr username ]}.

Definition entries : list value := [entry "key-zero"; entry "key-one"].

Definition profile : gmap string value :=
  <["securityKeys" := VList entries]>
    {[ "posixAccounts" := VList [VDict (account "alice"); VDict (account "bob")] ]}.

Definition profile_nokeys : gmap string value :=
  {[ "posixAccounts" := VList [VDict (account "carol")] ]}.

Definition oslogin : service :=
  Service (λ name view,
    if String.eqb name "users/me" then Ok (VDict profile)
    else if String.eqb name "users/nokeys" then Ok (VDict profile_nokeys)
    else Raise (HttpError 404)).

Definition platform : Os.platform :=
  Platform (λ _, "") "/home/u" (octal 0 2 2)
    (λ path, if String.eqb path "/locked/google_sk_1"
             then Some (OSError "Permission denied") else None)
    (λ _, None)
    (λ _ _, Ok oslogin).

Definition world : Os.world := World ∅ "" [].

(** The world after the keys of [me] are written to [/home/u/.ssh]. *)
Definition world1 : Os.world :=
  (write_ssh_key_files platform (VList entries) "/home/u/.ssh" world).2.

(** The world after the first key of [me] is written to [/locked]. *)
Definition world_locked : Os.world :=
  (write_ssh_key_files platform (VList [entry "key-zero"]) "/locked" world).2.

End Sample.

(** A second platform, for the runs that go wrong: [/missing] is a directory
    that does not exist, the script may write but not chmod
    [/foreign/google_sk_1], and the API knows users whose profiles lack
    POSIX accounts or a username. *)
Module Cases.

Definition profile_noaccounts : gmap string value :=
  {[ "securityKeys" := VList Sample.entries ]}.

Definition profile_emptyaccounts : gmap string value :=
  <["securityKeys" := VList Sample.entries]> {[ "posixAccounts" := VList [] ]}.

Definition profile_anonymous : gmap string value :=
  <["securityKeys" := VList Sample.entries]>
    {[ "posixAccounts" := VList [VDict ∅; VDict (Sample.account "bob")] ]}.

Definition oslogin : service :=
  Service (λ name view,
    if String.eqb name "users/me" then Ok (VDict Sample.profile)
    else if String.eqb name "users/noaccounts" then Ok (VDict profile_noaccounts)
    else if String.eqb name "users/emptyaccounts" then Ok (VDict profile_emptyaccounts)
    else if String.eqb name "users/anonymous" then Ok (VDict profile_anonymous)
    else Raise (HttpError 404)).

Definition platform : Os.platform :=
  Platform (λ _, "") "/home/u" (octal 0 2 2)
    (λ path, if String.prefix "/missing/" path
             then Some (OSError "No such file or directory") else None)
    (λ path, if String.eqb path "/foreign/google_sk_1"
             then Some (OSError "Operation not permitted") else None)
    (λ _ _, Ok oslogin).

(** A world in which [/foreign/google_sk_1] is there, readable by all. *)
Definition world : Os.world :=
  World {[ "/foreign/google_sk_1" := File "old" (octal 6 6 6) ]} "" [].

End Cases.

(** ** Strings *)

Lemma append_cons (c : ascii) (s t : string) :
  String c s +:+ t = String c (s +:+ t).
Proof. reflexivity. Qed.

Lemma append_nil_r (s : string) : s +:+ "" = s.
Proof. induction s as [|c s IH]; [done|]. by rewrite append_cons, IH. Qed.

Lemma append_assoc (s1 s2 s3 : string) : (s1 +:+ s2) +:+ s3 = s1 +:+ s2 +:+ s3.
Proof. induction s1 as [|c s1 IH]; [done|]. by rewrite !append_cons, IH. Qed.

Lemma key_file_name_inj : Inj (=) (=) key_file_name.
Proof.
  intros i j H. unfold key_file_name in H.
  apply (inj (String.app "google_sk_")) in H.
  apply (inj pretty) in H. lia.
Qed.

Lemma key_file_path_prefix (directory : string) (index : nat) :
  key_file_path directory index = dir_prefix directory +:+ key_file_name index.
Proof.
  unfold key_file_path, path_join, dir_prefix.
  replace (starts_with_slash (key_file_name index)) with false by reflexivity.
  destruct (_ || _)%bool; [done|]. by rewrite append_assoc.
Qed.

Lemma key_file_path_inj (directory : string) : Inj (=) (=) (key_file_path directory).
Proof.
  intros i j H. rewrite !key_file_path_prefix in H.
  apply (inj (String.app _)) in H. by apply key_file_name_inj.
Qed.

(** A directory that is not empty and does not end in a slash is joined to
    the file name by one slash. *)
Lemma key_file_path_plain (directory : string) (index : nat) :
  directory ≠ "" → ends_with_slash directory = false →
  key_file_path directory index =
    directory +:+ "/" +:+ "google_sk_" +:+ pretty (Z.of_nat index).
Proof.
  intros Hne Hslash. rewrite key_file_path_prefix. unfold dir_prefix.
  apply String.eqb_neq in Hne. rewrite Hne, Hslash. cbn [orb].
  by rewrite append_assoc.
Qed.

Lemma percent_key_file_name (repr : value → string) (index : nat) :
  percent repr "google_sk_%s" (VInt (Z.of_nat index)) = Ok (key_file_name index).
Proof.
  unfold percent, key_file_name. cbn. by rewrite append_nil_r.
Qed.

(** ** One turn of the loop *)
Section Writer.
Context (P : platform).

Lemma bind_lift {A B} (r : result A) (k : A → io B) (w : world) :
  (lift r ≫= k) w = match r with Ok a => k a w | Raise e => (Raise e, w) end.
Proof. by destruct r. Qed.

(** The turn written out: every way it can end. *)
Lemma write_ssh_key_file_unfold directory index key key_files w :
  write_ssh_key_file P directory index key key_files w =
    let path := key_file_path directory index in
    let m := match files w !! path with
             | Some f => mode f
             | None => N.ldiff (octal 6 6 6) (umask P)
             end in
    let opened := World (<[path := File "" m]> (files w)) (stdout w)
                        (fs_log w ++ [Opened path]) in
    match open_refused P path with
    | Some e => (Raise e, w)
    | None =>
        match get key "privateKey" with
        | Raise e => (Raise e, opened)
        | Ok (VStr s) =>
            let written := World (<[path := File s m]> (files w)) (stdout w)
                                 (fs_log w ++ [Opened path; Wrote path s]) in
            match chmod_refused P path with
            | Some e => (Raise e, written)
            | None =>
                (Ok (key_files ++ [path]),
                 World (<[path := stored s]> (files w)) (stdout w)
                       (fs_log w ++ key_calls path s))
            end
        | Ok _ => (Raise TypeError, opened)
        end
    end.
Proof.
  unfold write_ssh_key_file. rewrite bind_lift, percent_key_file_name.
  fold (key_file_path directory index).
  set (path := key_file_path directory index).
  unfold with_open_w, mbind, io_bind, open_w. cbn zeta.
  destruct (open_refused P path); [done|].
  unfold lift. destruct (get key "privateKey") as [v|e]; [|done].
  unfold file_write, chmod, mret, io_ret; cbn [files stdout fs_log].
  destruct v; try done.
  rewrite lookup_insert_eq; cbn [data mode].
  change ("" +:+ s) with s. rewrite insert_insert_eq, <-(assoc_L (++)).
  destruct (chmod_refused P path); [done|].
  cbn [files stdout fs_log]. rewrite lookup_insert_eq; cbn [data mode].
  by rewrite insert_insert_eq, <-(assoc_L (++)).
Qed.

Lemma write_ssh_key_file_ok directory index key s key_files w :
  accepts P (key_file_path directory index) → private_key key s →
  write_ssh_key_file P directory index key key_files w =
    (Ok (key_files ++ [key_file_path directory index]),
     store_keys directory index [s] w).
Proof.
  intros [Hopen Hchmod] Hkey. rewrite write_ssh_key_file_unfold. cbn zeta.
  unfold private_key in Hkey. by rewrite Hopen, Hkey, Hchmod.
Qed.

Lemma write_ssh_key_file_inv directory index key key_files r w w' :
  write_ssh_key_file P directory index key key_files w = (Ok r, w') →
  accepts P (key_file_path directory index) ∧ ∃ s, private_key key s.
Proof.
  rewrite write_ssh_key_file_unfold. cbn zeta. unfold accepts, private_key.
  destruct (open_refused P _); [done|].
  destruct (get key "privateKey") as [[]|]; try done.
  destruct (chmod_refused P _); [done|]. eauto.
Qed.

(** A turn that raises leaves every other path, and standard output, as
    they were. *)
Lemma write_ssh_key_file_frame directory index key key_files r w w' :
  write_ssh_key_file P directory index key key_files w = (r, w') →
  stdout w' = stdout w ∧
  ∀ p, p ≠ key_file_path directory index → files w' !! p = files w !! p.
Proof.
  rewrite write_ssh_key_file_unfold. cbn zeta.
  destruct (open_refused P _); [by intros [= <- <-]|].
  destruct (get key "privateKey") as [[]|];
    try (intros [= <- <-]; split; [done|];
         by intros p Hp; cbn; rewrite lookup_insert_ne).
  destruct (chmod_refused P _); intros [= <- <-]; (split; [done|]);
    by intros p Hp; cbn; rewrite lookup_insert_ne.
Qed.

(** ** The loop *)

Lemma write_ssh_key_loop_cons directory key items index key_files w :
  write_ssh_key_loop P directory (key :: items) index key_files w =
    match write_ssh_key_file P directory index key key_files w with
    | (Ok key_files', w') =>
        write_ssh_key_loop P directory items (S index) key_files' w'
    | (Raise e, w') => (Raise e, w')
    end.
Proof. reflexivity. Qed.

Lemma write_ssh_key_loop_app directory pre post index key_files w :
  write_ssh_key_loop P directory (pre ++ post) index key_files w =
    match write_ssh_key_loop P directory pre index key_files w with
    | (Ok key_files', w') =>
        write_ssh_key_loop P directory post (index + length pre) key_files' w'
    | (Raise e, w') => (Raise e, w')
    end.
Proof.
  revert index key_files w.
  induction pre as [|key pre IH]; intros index key_files w.
  - cbn. by rewrite Nat.add_0_r.
  - rewrite <-app_comm_cons, !write_ssh_key_loop_cons.
    destruct (write_ssh_key_file P _ _ _ _ _) as [[kf|e] w1]; [|done].
    rewrite IH. cbn [length]. by rewrite Nat.add_succ_r.
Qed.

Lemma write_ssh_key_loop_ok directory items keys :
  Forall2 private_key items keys →
  ∀ index key_files w,
    (∀ i, i < length items → accepts P (key_file_path directory (index + i))) →
    write_ssh_key_loop P directory items index key_files w =
      (Ok (key_files ++ (key_file_path directory <$> seq index (length items))),
       store_keys directory index keys w).
Proof.
  induction 1 as [|key s items keys Hkey _ IH]; intros index key_files w Hacc.
  - cbn. by rewrite app_nil_r.
  - rewrite write_ssh_key_loop_cons.
    rewrite (write_ssh_key_file_ok _ _ _ s); [|
      by specialize (Hacc 0 ltac:(cbn; lia)); rewrite Nat.add_0_r in Hacc | done].
    rewrite IH.
    + cbn [length seq fmap list_fmap]. by rewrite <-(assoc_L (++)).
    + intros i Hi. specialize (Hacc (S i) ltac:(cbn; lia)).
      by rewrite Nat.add_succ_r in Hacc.
Qed.

Lemma write_ssh_key_loop_inv directory items :
  ∀ index key_files r w w',
    write_ssh_key_loop P directory items index key_files w = (Ok r, w') →
    (∃ keys, Forall2 private_key items keys) ∧
    ∀ i, i < length items → accepts P (key_file_path directory (index + i)).
Proof.
  induction items as [|key items IH]; intros index key_files r w w' Hrun.
  - split; [by exists []|]. cbn. lia.
  - rewrite write_ssh_key_loop_cons in Hrun.
    destruct (write_ssh_key_file P _ _ _ _ _) as [[kf|e] w1] eqn:Hturn; [|done].
    apply write_ssh_key_file_inv in Hturn as [Hacc [s Hs]].
    apply IH in Hrun as [[keys Hkeys] Haccs]. split.
    + exists (s :: keys). by constructor.
    + intros [|i] Hi.
      * by rewrite Nat.add_0_r.
      * rewrite Nat.add_succ_r. apply Haccs. cbn in Hi. lia.
Qed.
End Writer.

(** ** The world after the keys are stored *)

Lemma stdout_store_keys directory keys :
  ∀ index w, stdout (store_keys directory index keys w) = stdout w.
Proof. induction keys as [|s keys IH]; intros; cbn; [done|]. by rewrite IH. Qed.

Lemma files_store_keys_other directory p keys :
  ∀ index w,
    (∀ i, i < length keys → p ≠ key_file_path directory (index + i)) →
    files (store_keys directory index keys w) !! p = files w !! p.
Proof.
  induction keys as [|s keys IH]; intros index w Hp; cbn; [done|].
  rewrite IH; cbn.
  - apply lookup_insert_ne. specialize (Hp 0 ltac:(cbn; lia)).
    by rewrite Nat.add_0_r in Hp.
  - intros i Hi. specialize (Hp (S i) ltac:(cbn; lia)).
    by rewrite Nat.add_succ_r in Hp.
Qed.

Lemma files_store_keys directory keys :
  ∀ index w i s,
    keys !! i = Some s →
    files (store_keys directory index keys w) !! key_file_path directory (index + i)
      = Some (stored s).
Proof.
  induction keys as [|s' keys IH]; intros index w i s Hi; [done|].
  destruct i as [|i]; cbn in Hi |- *.
  - injection Hi as ->. rewrite files_store_keys_other; cbn.
    + by rewrite Nat.add_0_r, lookup_insert_eq.
    + intros j _ Heq. apply key_file_path_inj in Heq. lia.
  - rewrite Nat.add_succ_r. by apply (IH (S index)).
Qed.

Lemma fs_log_store_keys directory keys :
  ∀ index w,
    fs_log (store_keys directory index keys w) =
      fs_log w ++
      mjoin (zip_with key_calls
               (key_file_path directory <$> seq index (length keys)) keys).
Proof.
  induction keys as [|s keys IH]; intros index w; cbn.
  - by rewrite app_nil_r.
  - rewrite IH. cbn [fs_log]. by rewrite <-(assoc_L (++)).
Qed.

Lemma NoDup_key_file_paths directory index n :
  NoDup (key_file_path directory <$> seq index n).
Proof.
  apply NoDup_fmap_2; [apply key_file_path_inj | apply NoDup_seq].
Qed.

Lemma elem_of_key_file_paths directory n p :
  p ∈ key_file_path directory <$> seq 0 n ↔
  ∃ i, i < n ∧ p = key_file_path directory i.
Proof.
  rewrite list_elem_of_fmap. split.
  - intros (i & -> & Hi). apply elem_of_seq in Hi. exists i. split; [lia|done].
  - intros (i & Hi & ->). exists i. split; [done|]. apply elem_of_seq. lia.
Qed.

(** ** The key file writer *)

Lemma write_ssh_key_files_list P entries directory w :
  write_ssh_key_files P (VList entries) directory w =
    write_ssh_key_loop P directory entries 0 [] w.
Proof. reflexivity. Qed.

(** A call that returns has stored the private key of every entry. *)
Lemma write_ssh_key_files_inv P entries directory paths w w' :
  write_ssh_key_files P (VList entries) directory w = (Ok paths, w') →
  ∃ keys,
    Forall2 private_key entries keys ∧
    (∀ i, i < length entries → accepts P (key_file_path directory i)) ∧
    paths = key_file_path directory <$> seq 0 (length entries) ∧
    w' = store_keys directory 0 keys w.
Proof.
  rewrite write_ssh_key_files_list. intros Hrun.
  destruct (write_ssh_key_loop_inv P directory entries 0 [] paths w w' Hrun)
    as [[keys Hkeys] Hacc].
  rewrite (write_ssh_key_loop_ok P directory entries keys Hkeys 0 [] w Hacc) in Hrun.
  injection Hrun as <- <-. by exists keys.
Qed.

Lemma files_store_keys_0 directory keys w i s :
  keys !! i = Some s →
  files (store_keys directory 0 keys w) !! key_file_path directory i
    = Some (stored s).
Proof. apply (files_store_keys directory keys 0 w i s). Qed.

(** C1.  For entries that each carry a private-key string, and a directory
    in which the operating system lets the script open and chmod the key
    files, [write_ssh_key_files] returns the paths of
    [google_sk_0 .. google_sk_(N-1)] in [directory], in input order and
    without repetition (for a directory that is not empty and has no trailing
    slash the path is [directory/google_sk_i]); the file at the i-th path
    holds exactly the i-th private key with mode 0600; the file-system calls
    made are, per entry and in order, open, write, chmod 0600; no other path
    and nothing on standard output changes. *)
Theorem write_ssh_key_files_creates_key_files
    (P : platform) (entries : list value) (keys : list string)
    (directory : string) (w : world) :
  Forall2 private_key entries keys →
  (∀ i, i < length entries → accepts P (key_file_path directory i)) →
  let paths :=
    (λ i, path_join directory ("google_sk_" +:+ pretty (Z.of_nat i)))
      <$> seq 0 (length entries) in
  ∃ w',
    write_ssh_key_files P (VList entries) directory w = (Ok paths, w') ∧
    length paths = length entries ∧
    NoDup paths ∧
    (directory ≠ "" → ends_with_slash directory = false →
     ∀ i, i < length entries →
       paths !! i =
         Some (directory +:+ "/" +:+ "google_sk_" +:+ pretty (Z.of_nat i))) ∧
    (∀ i path s, paths !! i = Some path → keys !! i = Some s →
       files w' !! path = Some (File s (octal 6 0 0))) ∧
    (∀ p, p ∉ paths → files w' !! p = files w !! p) ∧
    fs_log w' = fs_log w ++ mjoin (zip_with key_calls paths keys) ∧
    stdout w' = stdout w.
Proof.
  intros Hkeys Hacc paths.
  change paths with (key_file_path directory <$> seq 0 (length entries)).
  clear paths. exists (store_keys directory 0 keys w).
  assert (Hlen : length keys = length entries)
    by (symmetry; eapply Forall2_length; eauto).
  split_and!.
  - rewrite write_ssh_key_files_list.
    by rewrite (write_ssh_key_loop_ok P directory entries keys Hkeys 0 [] w Hacc).
  - by rewrite length_fmap, length_seq.
  - apply NoDup_key_file_paths.
  - intros Hne Hslash i Hi. rewrite list_lookup_fmap, lookup_seq_lt by done.
    cbn. by rewrite key_file_path_plain.
  - intros i path s Hpath Hs.
    apply list_lookup_fmap_Some in Hpath as (j & -> & Hj).
    apply lookup_seq in Hj as [-> _].
    by apply files_store_keys_0.
  - intros p Hp. apply files_store_keys_other. intros i Hi ->. apply Hp.
    apply elem_of_key_file_paths. exists i. split; [lia|done].
  - by rewrite fs_log_store_keys, Hlen.
  - apply stdout_store_keys.
Qed.

(** C4.  For the empty entry sequence [write_ssh_key_files] returns the empty
    list of paths and leaves the world as it was: no file is created and no
    file-system call is made. *)
Theorem write_ssh_key_files_empty (P : platform) (directory : string) (w : world) :
  write_ssh_key_files P (VList []) directory w = (Ok [], w).
Proof. reflexivity. Qed.

(** C6.  Round trip: whenever [write_ssh_key_files] returns, the entry at
    every index [i] has a private-key string, the [i]-th returned path is the
    path of [google_sk_i], and the contents of the file at that path are
    that string, character for character. *)
Theorem write_ssh_key_files_round_trip
    (P : platform) (entries : list value) (directory : string)
    (paths : list string) (w w' : world) (i : nat) (entry : value) :
  write_ssh_key_files P (VList entries) directory w = (Ok paths, w') →
  entries !! i = Some entry →
  ∃ s path,
    get entry "privateKey" = Ok (VStr s) ∧
    paths !! i = Some path ∧
    path = key_file_path directory i ∧
    data <$> files w' !! path = Some s.
Proof.
  intros Hrun Hentry.
  apply write_ssh_key_files_inv in Hrun as (keys & Hkeys & _ & -> & ->).
  destruct (Forall2_lookup_l _ _ _ _ _ Hkeys Hentry) as (s & Hs & Hkey).
  exists s, (key_file_path directory i). split_and!; [done| |done|].
  - apply lookup_lt_Some in Hentry.
    by rewrite list_lookup_fmap, lookup_seq_lt.
  - by rewrite (files_store_keys_0 directory keys w i s Hs).
Qed.

(** C7.  A second run in the same directory, after a first run that
    returned, returns as well (for entries that carry a private-key string,
    and with the operating system accepting any key file beyond those of the
    first run): the files [google_sk_i] of the first run are there, under the
    same paths, and are overwritten; nothing is written to standard output;
    after the second run each file holds the private key of the second run's
    entry, with mode 0600. *)
Theorem write_ssh_key_files_overwrites
    (P : platform) (entries1 entries2 : list value) (keys2 : list string)
    (directory : string) (paths1 : list string) (w w1 : world) :
  write_ssh_key_files P (VList entries1) directory w = (Ok paths1, w1) →
  Forall2 private_key entries2 keys2 →
  (∀ i, length entries1 ≤ i < length entries2 →
        accepts P (key_file_path directory i)) →
  ∃ paths2 w2,
    write_ssh_key_files P (VList entries2) directory w1 = (Ok paths2, w2) ∧
    length paths2 = length entries2 ∧
    stdout w2 = stdout w1 ∧
    (∀ i path, i < length entries1 → paths2 !! i = Some path →
       paths1 !! i = Some path ∧ is_Some (files w1 !! path)) ∧
    (∀ i path s, paths2 !! i = Some path → keys2 !! i = Some s →
       files w2 !! path = Some (File s (octal 6 0 0))).
Proof.
  intros Hrun1 Hkeys2 Hacc2.
  apply write_ssh_key_files_inv in Hrun1 as (keys1 & Hkeys1 & Hacc1 & -> & ->).
  exists (key_file_path directory <$> seq 0 (length entries2)),
         (store_keys directory 0 keys2 (store_keys directory 0 keys1 w)).
  split_and!.
  - rewrite write_ssh_key_files_list.
    apply (write_ssh_key_loop_ok P directory entries2 keys2 Hkeys2 0 []).
    intros i Hi. cbn. destruct (decide (i < length entries1)); [by apply Hacc1|].
    apply Hacc2. lia.
  - by rewrite length_fmap, length_seq.
  - apply stdout_store_keys.
  - intros i path Hi Hpath.
    apply list_lookup_fmap_Some in Hpath as (j & -> & Hj).
    apply lookup_seq in Hj as [-> _]. cbn. split.
    + by rewrite list_lookup_fmap, lookup_seq_lt.
    + destruct (Forall2_lookup_l _ _ _ i (default VNone (entries1 !! i)) Hkeys1)
        as (s & Hs & _).
      { apply lookup_lt_is_Some_2 in Hi as [x Hx]. by rewrite Hx. }
      by rewrite (files_store_keys_0 directory keys1 w i s Hs).
  - intros i path s Hpath Hs.
    apply list_lookup_fmap_Some in Hpath as (j & -> & Hj).
    apply lookup_seq in Hj as [-> _]. by apply files_store_keys_0.
Qed.

(** C8.  No rollback: when the entries before position [k] have been
    written and the turn of the loop for the entry at [k] raises [e], the
    call raises [e], in the world that turn left, and the files of the
    entries [0 .. k-1] are still there with their private keys and mode
    0600. *)
Theorem write_ssh_key_files_no_rollback
    (P : platform) (pre post : list value) (key : value) (directory : string)
    (paths : list string) (e : exn) (w w1 w2 : world) :
  write_ssh_key_files P (VList pre) directory w = (Ok paths, w1) →
  write_ssh_key_file P directory (length pre) key paths w1 = (Raise e, w2) →
  write_ssh_key_files P (VList (pre ++ key :: post)) directory w = (Raise e, w2) ∧
  ∀ i entry, pre !! i = Some entry →
    ∃ s, get entry "privateKey" = Ok (VStr s) ∧
         files w2 !! key_file_path directory i = Some (File s (octal 6 0 0)).
Proof.
  intros Hpre Hturn. split.
  - rewrite write_ssh_key_files_list in Hpre |- *.
    rewrite write_ssh_key_loop_app, Hpre, write_ssh_key_loop_cons.
    cbn [Nat.add]. by rewrite Hturn.
  - intros i entry Hentry.
    apply write_ssh_key_files_inv in Hpre as (keys & Hkeys & _ & -> & ->).
    destruct (Forall2_lookup_l _ _ _ _ _ Hkeys Hentry) as (s & Hs & Hkey).
    exists s. split; [done|].
    apply write_ssh_key_file_frame in Hturn as [_ Hframe].
    rewrite Hframe.
    + by apply files_store_keys_0.
    + intros Heq. apply key_file_path_inj in Heq.
      apply lookup_lt_Some in Hentry. lia.
Qed.

(** ** The command formatter *)

Lemma format_ssh_command repr (parameters : string) (username ip_address : value) :
  format repr "ssh {parameters} {username}@{ip_address}" []
    [("parameters", VStr parameters); ("username", username);
     ("ip_address", ip_address)] =
  Ok ("ssh " +:+ parameters +:+ " " +:+ str repr username +:+ "@" +:+
      str repr ip_address).
Proof.
  rewrite <-(append_nil_r (str repr ip_address)). reflexivity.
Qed.

Lemma format_users repr (user_key : value) :
  format repr "users/{}" [user_key] [] = Ok ("users/" +:+ str repr user_key).
Proof.
  rewrite <-(append_nil_r (str repr user_key)). reflexivity.
Qed.

Lemma ssh_command_run P key_files (username ip_address : value) w :
  ssh_command P key_files username ip_address w =
    (Ok (),
     World (files w)
       (stdout w +:+
        ("ssh " +:+ join " " ((λ f, "-i " +:+ f) <$> key_files) +:+ " " +:+
         str (repr_container P) username +:+ "@" +:+
         str (repr_container P) ip_address) +:+ newline)
       (fs_log w)).
Proof.
  unfold ssh_command. cbn zeta. by rewrite bind_lift, format_ssh_command.
Qed.

(** C2.  For the paths ["/a"; "/b"], the username ["alice"] and the host
    ["1.2.3.4"], [ssh_command] adds exactly the line
    [ssh -i /a -i /b alice@1.2.3.4] to standard output; in general the line
    is [ssh], the paths each prefixed with [-i ] and joined by single spaces,
    then [username@ip_address], with the strings inserted as they are. *)
Theorem ssh_command_prints_command (P : platform) :
  (∀ w, ssh_command P ["/a"; "/b"] (VStr "alice") (VStr "1.2.3.4") w =
     (Ok (), World (files w)
               (stdout w +:+ "ssh -i /a -i /b alice@1.2.3.4" +:+ newline)
               (fs_log w))) ∧
  (∀ key_files username ip_address w,
     ssh_command P key_files (VStr username) (VStr ip_address) w =
       (Ok (), World (files w)
                 (stdout w +:+
                  ("ssh " +:+ join " " ((λ f, "-i " +:+ f) <$> key_files) +:+
                   " " +:+ username +:+ "@" +:+ ip_address) +:+ newline)
                 (fs_log w))).
Proof. split; intros; apply ssh_command_run. Qed.

(** C10.  For no paths, the username ["bob"] and the host ["5.6.7.8"],
    [ssh_command] adds exactly the line [ssh  bob@5.6.7.8], with two spaces
    after [ssh], to standard output. *)
Theorem ssh_command_no_key_files (P : platform) (w : world) :
  join " " ((λ f, "-i " +:+ f) <$> []) = "" ∧
  ssh_command P [] (VStr "bob") (VStr "5.6.7.8") w =
    (Ok (), World (files w) (stdout w +:+ "ssh  bob@5.6.7.8" +:+ newline)
              (fs_log w)).
Proof. split; [done|]. apply ssh_command_run. Qed.

(** ** The whole run *)

(** [main] written out: the profile is fetched and read before anything is
    written or printed. *)
Lemma main_unfold P (user_key ip_address : value) directory w :
  main P user_key ip_address directory w =
    match fetch_profile P user_key with
    | Raise e => (Raise e, w)
    | Ok profile =>
        match get profile "securityKeys" with
        | Raise e => (Raise e, w)
        | Ok security_keys =>
            match first_username profile with
            | Raise e => (Raise e, w)
            | Ok username =>
                match write_ssh_key_files P security_keys
                        (ssh_directory P directory) w with
                | (Ok key_files, w') => ssh_command P key_files username ip_address w'
                | (Raise e, w') => (Raise e, w')
                end
            end
        end
    end.
Proof.
  unfold main, fetch_profile, first_username, build. cbn zeta.
  fold (ssh_directory P directory).
  rewrite bind_lift. destruct (discovery_build P _ _) as [oslogin|]; [|done].
  rewrite bind_lift, format_users. cbn [rbind].
  rewrite bind_lift. destruct (getLoginProfile oslogin _ _) as [profile|]; [|done].
  rewrite bind_lift. destruct (get profile "securityKeys"); [|done].
  rewrite bind_lift. destruct (get profile "posixAccounts"); [|done].
  cbn [rbind]. rewrite bind_lift. destruct (getitem _ 0); [|done].
  cbn [rbind]. rewrite bind_lift. by destruct (get _ "username").
Qed.

Lemma write_ssh_key_files_None P directory w :
  write_ssh_key_files P VNone directory w = (Raise TypeError, w).
Proof. reflexivity. Qed.

(** C3.  When the profile lists POSIX accounts, the first of which is a
    record with a username string, the command [main] prints (once the key
    files are written) has exactly that username before the [@]; and a
    profile that differs only in the accounts after the first gives the same
    run. *)
Theorem main_uses_first_posix_account
    (P : platform) (profile : gmap string value) (account : gmap string value)
    (others : list value) (username ip_address : string) (user_key : value)
    (directory : option string) (w : world) :
  fetch_profile P user_key = Ok (VDict profile) →
  profile !! "posixAccounts" = Some (VList (VDict account :: others)) →
  account !! "username" = Some (VStr username) →
  main P user_key (VStr ip_address) directory w =
    match write_ssh_key_files P (default VNone (profile !! "securityKeys"))
            (ssh_directory P directory) w with
    | (Ok key_files, w') =>
        (Ok (),
         World (files w')
           (stdout w' +:+
            ("ssh " +:+ join " " ((λ f, "-i " +:+ f) <$> key_files) +:+ " " +:+
             username +:+ "@" +:+ ip_address) +:+ newline)
           (fs_log w'))
    | (Raise e, w') => (Raise e, w')
    end ∧
  ∀ others' build',
    fetch_profile (with_build P build') user_key =
      Ok (VDict (<["posixAccounts" := VList (VDict account :: others')]> profile)) →
    main (with_build P build') user_key (VStr ip_address) directory w =
    main P user_key (VStr ip_address) directory w.
Proof.
  intros Hfetch Haccounts Huser.
  assert (Hmain : ∀ Q prof others0,
    fetch_profile Q user_key = Ok (VDict prof) →
    prof !! "posixAccounts" = Some (VList (VDict account :: others0)) →
    main Q user_key (VStr ip_address) directory w =
      match write_ssh_key_files Q (default VNone (prof !! "securityKeys"))
              (ssh_directory Q directory) w with
      | (Ok key_files, w') => ssh_command Q key_files (VStr username) (VStr ip_address) w'
      | (Raise e, w') => (Raise e, w')
      end).
  { intros Q prof others0 HQ Hprof. rewrite main_unfold, HQ.
    unfold first_username. cbn. rewrite Hprof. cbn. by rewrite Huser. }
  split.
  - rewrite (Hmain P profile others Hfetch Haccounts).
    destruct (write_ssh_key_files P _ _ w) as [[key_files|e] w']; [|done].
    apply ssh_command_run.
  - intros others' build' Hfetch'.
    rewrite (Hmain P profile others Hfetch Haccounts).
    rewrite (Hmain _ _ others' Hfetch') by apply lookup_insert_eq.
    rewrite lookup_insert_ne by done. reflexivity.
Qed.

(** C5.  When the fetched profile has no ['securityKeys'] field, the value
    [main] reads for the security keys is [None]; [write_ssh_key_files]
    raises [TypeError] on [None] without touching the world; and [main] ends
    with an exception, having written no file and printed nothing.  The
    exception is that [TypeError] whenever the username could be read. *)
Theorem main_without_security_keys
    (P : platform) (profile : gmap string value) (user_key ip_address : value)
    (directory : option string) (w : world) :
  fetch_profile P user_key = Ok (VDict profile) →
  profile !! "securityKeys" = None →
  get (VDict profile) "securityKeys" = Ok VNone ∧
  (∀ d w0, write_ssh_key_files P VNone d w0 = (Raise TypeError, w0)) ∧
  ∃ e,
    main P user_key ip_address directory w = (Raise e, w) ∧
    (∀ username, first_username (VDict profile) = Ok username → e = TypeError).
Proof.
  intros Hfetch Hkeys. split_and!.
  - cbn. by rewrite Hkeys.
  - intros d w0. apply write_ssh_key_files_None.
  - rewrite main_unfold, Hfetch. cbn [get]. rewrite Hkeys. cbn [default].
    destruct (first_username (VDict profile)) as [username|e].
    + exists TypeError. by rewrite write_ssh_key_files_None.
    + exists e. split; [done|]. by intros username.
Qed.

(** C9.  When building the client or fetching the profile raises [e],
    [main] raises the same [e] and the world is as it was before the call:
    no key file is written, no file-system call is made and nothing is
    printed. *)
Theorem main_lookup_failure
    (P : platform) (user_key ip_address : value) (directory : option string)
    (e : exn) (w : world) :
  (discovery_build P "oslogin" "v1beta" = Raise e ∨
   ∃ oslogin,
     discovery_build P "oslogin" "v1beta" = Ok oslogin ∧
     getLoginProfile oslogin ("users/" +:+ str (repr_container P) user_key)
       "SECURITY_KEY" = Raise e) →
  main P user_key ip_address directory w = (Raise e, w).
Proof.
  intros Hfail. rewrite main_unfold. unfold fetch_profile.
  destruct Hfail as [Hbuild|(oslogin & Hbuild & Hexec)]; rewrite Hbuild; cbn.
  - done.
  - by rewrite Hexec.
Qed.

(** ** Sample runs *)

Example main_sample_run :
  main Sample.platform (VStr "me") (VStr "1.2.3.4") None Sample.world =
    (Ok (),
     World (files Sample.world1)
       ("ssh -i /home/u/.ssh/google_sk_0 -i /home/u/.ssh/google_sk_1 alice@1.2.3.4"
        +:+ newline)
       (fs_log Sample.world1)).
Proof. vm_compute. reflexivity. Qed.

Example world1_files :
  files Sample.world1 !! "/home/u/.ssh/google_sk_0"
    = Some (File "key-zero" (octal 6 0 0)) ∧
  files Sample.world1 !! "/home/u/.ssh/google_sk_1"
    = Some (File "key-one" (octal 6 0 0)) ∧
  size (files Sample.world1) = 2.
Proof. vm_compute. done. Qed.

(** A trailing slash of the directory is not doubled. *)
Example key_file_path_trailing_slash :
  key_file_path "/tmp/keys/" 0 = "/tmp/keys/google_sk_0" ∧
  key_file_path "/tmp/keys" 10 = "/tmp/keys/google_sk_10".
Proof. vm_compute. done. Qed.

(** An entry without a private key stops the run after its file was opened:
    the file is left empty, with the mode it was created with. *)
Example missing_private_key_run :
  let run := write_ssh_key_files Sample.platform
               (VList [Sample.entry "key-zero"; VDict ∅]) "/home/u/.ssh"
               Sample.world in
  run.1 = Raise TypeError ∧
  files run.2 !! "/home/u/.ssh/google_sk_0" = Some (File "key-zero" (octal 6 0 0)) ∧
  files run.2 !! "/home/u/.ssh/google_sk_1" = Some (File "" (octal 6 4 4)).
Proof. vm_compute. done. Qed.

Lemma sample_accepts directory :
  directory = "/home/u/.ssh" ∨ directory = "/tmp/keys/" →
  ∀ i, accepts Sample.platform (key_file_path directory i).
Proof. intros [-> | ->] i; split; reflexivity. Qed.

Lemma write_ssh_key_files_creates_key_files_witness :
  Forall2 private_key Sample.entries ["key-zero"; "key-one"] ∧
  ∃ w',
    write_ssh_key_files Sample.platform (VList Sample.entries) "/home/u/.ssh"
      Sample.world
    = (Ok ["/home/u/.ssh/google_sk_0"; "/home/u/.ssh/google_sk_1"], w') ∧
    files w' !! "/home/u/.ssh/google_sk_1" = Some (File "key-one" (octal 6 0 0)) ∧
    fs_log w' =
      [Opened "/home/u/.ssh/google_sk_0";
       Wrote "/home/u/.ssh/google_sk_0" "key-zero";
       Chmodded "/home/u/.ssh/google_sk_0" (octal 6 0 0);
       Opened "/home/u/.ssh/google_sk_1";
       Wrote "/home/u/.ssh/google_sk_1" "key-one";
       Chmodded "/home/u/.ssh/google_sk_1" (octal 6 0 0)].
Proof.
  assert (Hkeys : Forall2 private_key Sample.entries ["key-zero"; "key-one"])
    by (repeat constructor).
  split; [exact Hkeys|].
  destruct (write_ssh_key_files_creates_key_files Sample.platform
              Sample.entries ["key-zero"; "key-one"] "/home/u/.ssh" Sample.world
              Hkeys (λ i _, sample_accepts _ (or_introl eq_refl) i))
    as (w' & Hrun & _ & _ & _ & Hfiles & _ & Hlog & _).
  exists w'. split_and!.
  - exact Hrun.
  - apply (Hfiles 1); reflexivity.
  - exact Hlog.
Defined.

Lemma write_ssh_key_files_round_trip_witness :
  ∃ s path,
    get (Sample.entry "key-one") "privateKey" = Ok (VStr s) ∧
    ["/home/u/.ssh/google_sk_0"; "/home/u/.ssh/google_sk_1"] !! 1 = Some path ∧
    path = key_file_path "/home/u/.ssh" 1 ∧
    data <$> files Sample.world1 !! path = Some s.
Proof.
  apply (write_ssh_key_files_round_trip Sample.platform Sample.entries
           "/home/u/.ssh" _ Sample.world Sample.world1 1 (Sample.entry "key-one")).
  - vm_compute. reflexivity.
  - reflexivity.
Defined.

Lemma write_ssh_key_files_overwrites_witness :
  write_ssh_key_files Sample.platform (VList Sample.entries) "/home/u/.ssh"
    Sample.world
  = (Ok ["/home/u/.ssh/google_sk_0"; "/home/u/.ssh/google_sk_1"], Sample.world1) ∧
  ∃ paths2 w2,
    write_ssh_key_files Sample.platform
      (VList [Sample.entry "new-zero"; Sample.entry "new-one"]) "/home/u/.ssh"
      Sample.world1 = (Ok paths2, w2) ∧
    paths2 !! 0 = Some "/home/u/.ssh/google_sk_0" ∧
    is_Some (files Sample.world1 !! "/home/u/.ssh/google_sk_0") ∧
    files w2 !! "/home/u/.ssh/google_sk_0" = Some (File "new-zero" (octal 6 0 0)).
Proof.
  assert (Hrun1 :
    write_ssh_key_files Sample.platform (VList Sample.entries) "/home/u/.ssh"
      Sample.world
    = (Ok ["/home/u/.ssh/google_sk_0"; "/home/u/.ssh/google_sk_1"], Sample.world1))
    by (vm_compute; reflexivity).
  split; [exact Hrun1|].
  destruct (write_ssh_key_files_overwrites Sample.platform Sample.entries
              [Sample.entry "new-zero"; Sample.entry "new-one"]
              ["new-zero"; "new-one"] "/home/u/.ssh" _ Sample.world Sample.world1
              Hrun1 ltac:(repeat constructor)
              (λ i _, sample_accepts _ (or_introl eq_refl) i))
    as (paths2 & w2 & Hrun2 & Hlen & _ & Hsame & Hfiles).
  assert (Hpath : paths2 !! 0 = Some "/home/u/.ssh/google_sk_0").
  { destruct paths2 as [|path paths2]; [discriminate Hlen|].
    destruct (Hsame 0 path ltac:(cbn; lia) eq_refl) as [Hp _].
    injection Hp as <-. reflexivity. }
  exists paths2, w2. split_and!.
  - exact Hrun2.
  - exact Hpath.
  - exact (proj2 (Hsame 0 _ ltac:(cbn; lia) Hpath)).
  - exact (Hfiles 0 _ "new-zero" Hpath eq_refl).
Defined.

Lemma write_ssh_key_files_no_rollback_witness :
  write_ssh_key_file Sample.platform "/locked" 1 (Sample.entry "key-one")
    ["/locked/google_sk_0"] Sample.world_locked
  = (Raise (OSError "Permission denied"), Sample.world_locked) ∧
  write_ssh_key_files Sample.platform (VList Sample.entries) "/locked" Sample.world
  = (Raise (OSError "Permission denied"), Sample.world_locked) ∧
  ∃ s, get (Sample.entry "key-zero") "privateKey" = Ok (VStr s) ∧
       files Sample.world_locked !! "/locked/google_sk_0"
         = Some (File s (octal 6 0 0)).
Proof.
  assert (Hturn :
    write_ssh_key_file Sample.platform "/locked" 1 (Sample.entry "key-one")
      ["/locked/google_sk_0"] Sample.world_locked
    = (Raise (OSError "Permission denied"), Sample.world_locked))
    by (vm_compute; reflexivity).
  split; [exact Hturn|].
  destruct (write_ssh_key_files_no_rollback Sample.platform
              [Sample.entry "key-zero"] [] (Sample.entry "key-one") "/locked"
              ["/locked/google_sk_0"] (OSError "Permission denied")
              Sample.world Sample.world_locked Sample.world_locked
              ltac:(vm_compute; reflexivity) Hturn) as [Hrun Hfiles].
  split; [exact Hrun|].
  exact (Hfiles 0 (Sample.entry "key-zero") eq_refl).
Defined.

Lemma main_uses_first_posix_account_witness :
  fetch_profile Sample.platform (VStr "me") = Ok (VDict Sample.profile) ∧
  main Sample.platform (VStr "me") (VStr "1.2.3.4") (Some "/tmp/keys/") Sample.world
  = main (with_build Sample.platform (λ _ _, Ok (Service (λ _ _,
            Ok (VDict (<["posixAccounts" := VList [VDict (Sample.account "alice")]]>
                         Sample.profile))))))
      (VStr "me") (VStr "1.2.3.4") (Some "/tmp/keys/") Sample.world.
Proof.
  assert (Hfetch : fetch_profile Sample.platform (VStr "me") = Ok (VDict Sample.profile))
    by reflexivity.
  split; [exact Hfetch|]. symmetry.
  apply (proj2 (main_uses_first_posix_account Sample.platform Sample.profile
                  (Sample.account "alice") [VDict (Sample.account "bob")]
                  "alice" "1.2.3.4" (VStr "me") (Some "/tmp/keys/") Sample.world
                  Hfetch eq_refl eq_refl) []).
  reflexivity.
Defined.

Lemma main_without_security_keys_witness :
  fetch_profile Sample.platform (VStr "nokeys") = Ok (VDict Sample.profile_nokeys) ∧
  Sample.profile_nokeys !! "securityKeys" = None ∧
  main Sample.platform (VStr "nokeys") (VStr "1.2.3.4") None Sample.world
  = (Raise TypeError, Sample.world).
Proof.
  assert (Hfetch : fetch_profile Sample.platform (VStr "nokeys")
                   = Ok (VDict Sample.profile_nokeys)) by reflexivity.
  assert (Hnone : Sample.profile_nokeys !! "securityKeys" = None) by reflexivity.
  split_and!; [exact Hfetch | exact Hnone |].
  destruct (main_without_security_keys Sample.platform Sample.profile_nokeys
              (VStr "nokeys") (VStr "1.2.3.4") None Sample.world Hfetch Hnone)
    as (_ & _ & e & Hmain & He).
  rewrite (He (VStr "carol") eq_refl) in Hmain. exact Hmain.
Defined.

Lemma main_lookup_failure_witness :
  getLoginProfile Sample.oslogin "users/nobody" "SECURITY_KEY" = Raise (HttpError 404) ∧
  main Sample.platform (VStr "nobody") (VStr "1.2.3.4") None Sample.world
  = (Raise (HttpError 404), Sample.world).
Proof.
  split; [reflexivity|].
  apply main_lookup_failure. right. exists Sample.oslogin.
  split; reflexivity.
Defined.

(** ** What the writer leaves alone, however the call ends *)

(** What a turn of the loop keeps, however it ends. *)
Lemma write_ssh_key_file_keeps P directory index key key_files r w w' :
  write_ssh_key_file P directory index key key_files w = (r, w') →
  (∀ p, is_Some (files w !! p) → is_Some (files w' !! p)) ∧
  fs_log w `prefix_of` fs_log w'.
Proof.
  rewrite write_ssh_key_file_unfold. cbn zeta.
  assert (Hkeep : ∀ f (fs : gmap string file) p,
    is_Some (fs !! p) → is_Some (<[key_file_path directory index := f]> fs !! p)).
  { intros f fs p Hp. destruct (decide (key_file_path directory index = p)) as [<-|].
    - by rewrite lookup_insert_eq.
    - by rewrite lookup_insert_ne. }
  destruct (open_refused P _); [by intros [= <- <-]|].
  destruct (get key "privateKey") as [[]|];
    try (intros [= <- <-]; split; [apply Hkeep | by apply prefix_app_r]).
  destruct (chmod_refused P _); intros [= <- <-];
    (split; [apply Hkeep | by apply prefix_app_r]).
Qed.

Lemma write_ssh_key_loop_frame P directory items :
  ∀ index key_files r w w',
    write_ssh_key_loop P directory items index key_files w = (r, w') →
    stdout w' = stdout w ∧
    (∀ p, (∀ i, i < length items → p ≠ key_file_path directory (index + i)) →
          files w' !! p = files w !! p) ∧
    (∀ p, is_Some (files w !! p) → is_Some (files w' !! p)) ∧
    fs_log w `prefix_of` fs_log w'.
Proof.
  induction items as [|key items IH]; intros index key_files r w w' Hrun.
  - injection Hrun as <- <-. done.
  - rewrite write_ssh_key_loop_cons in Hrun.
    destruct (write_ssh_key_file P _ _ _ _ _) as [r1 w1] eqn:Hturn.
    destruct (write_ssh_key_file_frame _ _ _ _ _ _ _ _ Hturn) as [Hout Hother].
    destruct (write_ssh_key_file_keeps _ _ _ _ _ _ _ _ Hturn) as [Hkeep Hlog].
    assert (Hhere : ∀ p,
      (∀ i, i < length (key :: items) → p ≠ key_file_path directory (index + i)) →
      files w1 !! p = files w !! p).
    { intros p Hp. apply Hother. specialize (Hp 0 ltac:(cbn; lia)).
      by rewrite Nat.add_0_r in Hp. }
    destruct r1 as [key_files'|e].
    + apply IH in Hrun as (Hout' & Hother' & Hkeep' & Hlog'). split_and!.
      * congruence.
      * intros p Hp. rewrite Hother', Hhere; [done..|].
        intros i Hi. specialize (Hp (S i) ltac:(cbn; lia)).
        by rewrite Nat.add_succ_r in Hp.
      * auto.
      * by etrans.
    + injection Hrun as <- <-. done.
Qed.

Lemma write_ssh_key_files_any_outcome P security_keys directory r w w' :
  write_ssh_key_files P security_keys directory w = (r, w') →
  stdout w' = stdout w ∧
  (∀ p, (∀ i, p ≠ key_file_path directory i) → files w' !! p = files w !! p) ∧
  (∀ p, is_Some (files w !! p) → is_Some (files w' !! p)) ∧
  fs_log w `prefix_of` fs_log w'.
Proof.
  unfold write_ssh_key_files. rewrite bind_lift.
  destruct (iter security_keys) as [items|e].
  - intros Hrun.
    apply write_ssh_key_loop_frame in Hrun as (Hout & Hother & Hkeep & Hlog).
    split_and!; [done| |done..]. intros p Hp. apply Hother. intros i _. apply Hp.
  - by intros [= <- <-].
Qed.

(** X1.  However a call of [write_ssh_key_files] ends, and whatever value it
    is given, it prints nothing, changes no path that is not a
    [google_sk_<n>] of the directory, removes no file, and only adds to the
    record of file-system calls. *)
Theorem write_ssh_key_files_frame
    (P : platform) (security_keys : value) (directory : string)
    (r : result (list string)) (w w' : world) :
  write_ssh_key_files P security_keys directory w = (r, w') →
  stdout w' = stdout w ∧
  (∀ p, (∀ i, p ≠ key_file_path directory i) → files w' !! p = files w !! p) ∧
  (∀ p, is_Some (files w !! p) → is_Some (files w' !! p)) ∧
  fs_log w `prefix_of` fs_log w'.
Proof.
  apply write_ssh_key_files_any_outcome.
Qed.

(** ** The ways a turn of the loop goes wrong *)

Lemma write_ssh_key_files_snoc P pre key post directory paths w w1 :
  write_ssh_key_files P (VList pre) directory w = (Ok paths, w1) →
  write_ssh_key_files P (VList (pre ++ key :: post)) directory w =
    match write_ssh_key_file P directory (length pre) key paths w1 with
    | (Ok key_files, w2) =>
        write_ssh_key_loop P directory post (S (length pre)) key_files w2
    | (Raise e, w2) => (Raise e, w2)
    end.
Proof.
  rewrite !write_ssh_key_files_list. intros Hpre.
  by rewrite write_ssh_key_loop_app, Hpre, write_ssh_key_loop_cons.
Qed.



(** X4.  When [open] is refused for the file of an entry (the directory does
    not exist, say), the call raises that error and the world is the one the
    entries before it left: for the first entry, nothing at all has
    happened, and no directory is created. *)
Theorem write_ssh_key_files_open_refused
    (P : platform) (pre post : list value) (key : value) (directory : string)
    (paths : list string) (e : exn) (w w1 : world) :
  write_ssh_key_files P (VList pre) directory w = (Ok paths, w1) →
  open_refused P (key_file_path directory (length pre)) = Some e →
  write_ssh_key_files P (VList (pre ++ key :: post)) directory w = (Raise e, w1) ∧
  (pre = [] → w1 = w).
Proof.
  intros Hpre Hopen. split.
  - rewrite (write_ssh_key_files_snoc _ _ _ _ _ _ _ _ Hpre).
    rewrite write_ssh_key_file_unfold. cbn zeta. by rewrite Hopen.
  - intros ->. by injection Hpre as _ <-.
Qed.

(** ** Running the writer again *)

(** X5.  A second run with fewer entries does not clean up: the files
    [google_sk_i] of the first run at the positions the second run does not
    have are still there with the first run's private keys, and their paths
    are not among those the second run returns. *)
Theorem write_ssh_key_files_stale_files
    (P : platform) (entries1 entries2 : list value) (directory : string)
    (paths1 paths2 : list string) (w w1 w2 : world) (i : nat) (entry : value) :
  write_ssh_key_files P (VList entries1) directory w = (Ok paths1, w1) →
  write_ssh_key_files P (VList entries2) directory w1 = (Ok paths2, w2) →
  (length entries2 ≤ i)%nat →
  entries1 !! i = Some entry →
  ∃ s,
    get entry "privateKey" = Ok (VStr s) ∧
    files w2 !! key_file_path directory i = Some (File s (octal 6 0 0)) ∧
    key_file_path directory i ∉ paths2.
Proof.
  intros Hrun1 Hrun2 Hi Hentry.
  apply write_ssh_key_files_inv in Hrun1 as (keys1 & Hkeys1 & _ & -> & ->).
  apply write_ssh_key_files_inv in Hrun2 as (keys2 & Hkeys2 & _ & -> & ->).
  destruct (Forall2_lookup_l _ _ _ _ _ Hkeys1 Hentry) as (s & Hs & Hkey).
  assert (Hlen : length keys2 = length entries2)
    by (symmetry; eapply Forall2_length; eauto).
  exists s. split_and!; [done| |].
  - rewrite files_store_keys_other.
    + by apply files_store_keys_0.
    + intros j Hj Heq. apply key_file_path_inj in Heq. lia.
  - intros (j & Hj & Heq)%elem_of_key_file_paths.
    apply key_file_path_inj in Heq. lia.
Qed.

(** X6.  Running the writer again with the same entries changes no file:
    the second run returns the same paths and the files are, path for path,
    what the first run left. *)
Theorem write_ssh_key_files_same_entries_again
    (P : platform) (entries : list value) (directory : string)
    (paths : list string) (w w1 : world) :
  write_ssh_key_files P (VList entries) directory w = (Ok paths, w1) →
  ∃ w2,
    write_ssh_key_files P (VList entries) directory w1 = (Ok paths, w2) ∧
    files w2 = files w1 ∧
    stdout w2 = stdout w1.
Proof.
  intros Hrun.
  apply write_ssh_key_files_inv in Hrun as (keys & Hkeys & Hacc & -> & ->).
  exists (store_keys directory 0 keys (store_keys directory 0 keys w)).
  split_and!.
  - rewrite write_ssh_key_files_list.
    by apply (write_ssh_key_loop_ok P directory entries keys Hkeys 0 []).
  - apply map_eq. intros p.
    destruct (decide (p ∈ key_file_path directory <$> seq 0 (length keys)))
      as [Hin|Hout].
    + apply elem_of_key_file_paths in Hin as (i & Hi & ->).
      apply lookup_lt_is_Some_2 in Hi as [s Hs].
      by rewrite !(files_store_keys_0 directory keys _ i s Hs).
    + apply files_store_keys_other. intros i Hi ->. apply Hout.
      apply elem_of_key_file_paths. exists i. split; [lia|done].
  - apply stdout_store_keys.
Qed.

(** ** More on the whole run *)


(** X8.  The whole run, when all goes well: for a profile whose security
    keys each carry a private-key string and whose first POSIX account has a
    username string, in a directory where the operating system accepts the
    key files, [main] returns; every key is in its file [google_sk_i] with
    mode 0600; and the one line printed names exactly those files, in the
    order of the keys, each after [-i ], before [username@ip_address]. *)
Theorem main_writes_and_prints
    (P : platform) (profile account : gmap string value)
    (entries others : list value) (keys : list string)
    (username ip_address : string) (user_key : value)
    (directory : option string) (w : world) :
  fetch_profile P user_key = Ok (VDict profile) →
  profile !! "securityKeys" = Some (VList entries) →
  Forall2 private_key entries keys →
  profile !! "posixAccounts" = Some (VList (VDict account :: others)) →
  account !! "username" = Some (VStr username) →
  (∀ i, i < length entries →
        accepts P (key_file_path (ssh_directory P directory) i)) →
  let paths := key_file_path (ssh_directory P directory)
                 <$> seq 0 (length entries) in
  ∃ w',
    main P user_key (VStr ip_address) directory w = (Ok (), w') ∧
    stdout w' =
      stdout w +:+
      ("ssh " +:+ join " " ((λ f, "-i " +:+ f) <$> paths) +:+ " " +:+
       username +:+ "@" +:+ ip_address) +:+ newline ∧
    (∀ i s, keys !! i = Some s →
       files w' !! key_file_path (ssh_directory P directory) i
         = Some (File s (octal 6 0 0))) ∧
    (∀ p, p ∉ paths → files w' !! p = files w !! p).
Proof.
  intros Hfetch Hsk Hkeys Hacc Huser Hos paths.
  exists (World (files (store_keys (ssh_directory P directory) 0 keys w))
            (stdout w +:+
             ("ssh " +:+ join " " ((λ f, "-i " +:+ f) <$> paths) +:+ " " +:+
              username +:+ "@" +:+ ip_address) +:+ newline)
            (fs_log (store_keys (ssh_directory P directory) 0 keys w))).
  split_and!.
  - rewrite main_unfold, Hfetch. cbn [get]. rewrite Hsk. cbn [default].
    unfold first_username. cbn [get rbind]. rewrite Hacc. cbn.
    rewrite Huser. cbn [default].
    rewrite write_ssh_key_files_list.
    rewrite (write_ssh_key_loop_ok P _ entries keys Hkeys 0 [] w Hos).
    rewrite ssh_command_run. cbn [app str]. by rewrite stdout_store_keys.
  - done.
  - intros i s Hs. cbn [files]. by apply files_store_keys_0.
  - intros p Hp. cbn [files]. apply files_store_keys_other. intros i Hi ->.
    apply Hp. apply elem_of_key_file_paths. exists i. split; [|done].
    erewrite Forall2_length by done. lia.
Qed.

(** X9.  The username is read before any file is written: a profile
    without POSIX accounts makes [main] raise ([TypeError] when the field is
    absent, [IndexError] when the list is empty, [AttributeError] when the
    first account is not a record) with the world as it was, even when the
    profile has security keys. *)
Theorem main_without_posix_accounts
    (P : platform) (profile : gmap string value) (user_key ip_address : value)
    (directory : option string) (w : world) :
  fetch_profile P user_key = Ok (VDict profile) →
  (profile !! "posixAccounts" = None →
   main P user_key ip_address directory w = (Raise TypeError, w)) ∧
  (profile !! "posixAccounts" = Some (VList []) →
   main P user_key ip_address directory w = (Raise IndexError, w)) ∧
  (∀ first others,
     profile !! "posixAccounts" = Some (VList (first :: others)) →
     (∀ d, first ≠ VDict d) →
     main P user_key ip_address directory w = (Raise AttributeError, w)).
Proof.
  intros Hfetch.
  split_and!; [intros Hacc | intros Hacc | intros first others Hacc Hfirst];
    rewrite main_unfold, Hfetch; unfold first_username; cbn [get rbind];
    rewrite Hacc; cbn; [done..|].
  destruct first; try done. by destruct (Hfirst d).
Qed.

Lemma path_join_ssh_nonempty (home : string) : path_join home ".ssh" ≠ "".
Proof.
  unfold path_join. cbn [starts_with_slash Ascii.eqb].
  change (starts_with_slash ".ssh") with false. cbn match.
  destruct (_ || _)%bool; by destruct home.
Qed.

(** X10.  An empty directory argument counts as none: with [None], with the
    empty string and with [~/.ssh] written out, [main] does the same. *)
Theorem main_default_directory
    (P : platform) (user_key ip_address : value) (w : world) :
  main P user_key ip_address (Some "") w = main P user_key ip_address None w ∧
  main P user_key ip_address (Some (path_join (home P) ".ssh")) w
    = main P user_key ip_address None w.
Proof.
  split; [reflexivity|].
  rewrite !main_unfold.
  replace (ssh_directory P (Some (path_join (home P) ".ssh")))
    with (ssh_directory P None); [done|].
  unfold ssh_directory, expanduser_tilde. cbn [truthy].
  pose proof (path_join_ssh_nonempty (home P)) as Hne.
  apply String.eqb_neq in Hne. by rewrite Hne.
Qed.

(** X11.  A first POSIX account without a username does not stop the run:
    [get] gives [None], and the command is printed with [None] before the
    [@]. *)
Theorem main_missing_username
    (P : platform) (profile account : gmap string value) (others : list value)
    (ip_address : string) (user_key : value) (directory : option string)
    (w : world) :
  fetch_profile P user_key = Ok (VDict profile) →
  profile !! "posixAccounts" = Some (VList (VDict account :: others)) →
  account !! "username" = None →
  main P user_key (VStr ip_address) directory w =
    match write_ssh_key_files P (default VNone (profile !! "securityKeys"))
            (ssh_directory P directory) w with
    | (Ok key_files, w') =>
        (Ok (),
         World (files w')
           (stdout w' +:+
            ("ssh " +:+ join " " ((λ f, "-i " +:+ f) <$> key_files) +:+ " " +:+
             "None" +:+ "@" +:+ ip_address) +:+ newline)
           (fs_log w'))
    | (Raise e, w') => (Raise e, w')
    end.
Proof.
  intros Hfetch Hacc Huser. rewrite main_unfold, Hfetch.
  unfold first_username. cbn [get rbind]. rewrite Hacc. cbn. rewrite Huser.
  cbn [default].
  destruct (write_ssh_key_files P _ _ w) as [[key_files|e] w']; [|done].
  apply ssh_command_run.
Qed.

(** X12.  Arguments left out on the command line reach [main] as [None] and
    are formatted as the text [None]: the profile looked up is that of the
    user [None], and the host printed is [None]. *)
Theorem main_arguments_left_out
    (P : platform) (user_key ip_address : value) (directory : option string)
    (w : world) :
  main P VNone ip_address directory w
    = main P (VStr "None") ip_address directory w ∧
  main P user_key VNone directory w
    = main P user_key (VStr "None") directory w.
Proof.
  split.
  - by rewrite !main_unfold.
  - rewrite !main_unfold.
    destruct (fetch_profile P user_key) as [profile|]; [|done].
    destruct (get profile "securityKeys") as [security_keys|]; [|done].
    destruct (first_username profile) as [username|]; [|done].
    destruct (write_ssh_key_files P security_keys _ w) as [[key_files|e] w1]; [|done].
    by rewrite !ssh_command_run.
Qed.


(** ** More sample runs *)

Lemma write_ssh_key_files_frame_witness :
  write_ssh_key_files Sample.platform (VList Sample.entries) "/locked" Sample.world
  = (Raise (OSError "Permission denied"), Sample.world_locked) ∧
  stdout Sample.world_locked = stdout Sample.world ∧
  files Sample.world_locked !! "/home/u/.ssh/id_rsa"
  = files Sample.world !! "/home/u/.ssh/id_rsa".
Proof.
  assert (Hrun :
    write_ssh_key_files Sample.platform (VList Sample.entries) "/locked" Sample.world
    = (Raise (OSError "Permission denied"), Sample.world_locked))
    by (vm_compute; reflexivity).
  split; [exact Hrun|].
  destruct (write_ssh_key_files_frame _ _ _ _ _ _ Hrun) as (Hout & Hother & _).
  split; [exact Hout|]. apply Hother.
  intros i Heq. rewrite key_file_path_prefix in Heq. discriminate Heq.
Defined.



Lemma write_ssh_key_files_open_refused_witness :
  write_ssh_key_files Cases.platform (VList Sample.entries) "/missing" Cases.world
  = (Raise (OSError "No such file or directory"), Cases.world).
Proof.
  exact (proj1 (write_ssh_key_files_open_refused Cases.platform
                  [] [Sample.entry "key-one"] (Sample.entry "key-zero")
                  "/missing" [] (OSError "No such file or directory")
                  Cases.world Cases.world eq_refl eq_refl)).
Defined.

Lemma write_ssh_key_files_stale_files_witness :
  ∃ s,
    get (Sample.entry "key-one") "privateKey" = Ok (VStr s) ∧
    files (write_ssh_key_files Sample.platform (VList [Sample.entry "new-zero"])
             "/home/u/.ssh" Sample.world1).2
      !! key_file_path "/home/u/.ssh" 1 = Some (File s (octal 6 0 0)) ∧
    key_file_path "/home/u/.ssh" 1 ∉ ["/home/u/.ssh/google_sk_0"].
Proof.
  apply (write_ssh_key_files_stale_files Sample.platform Sample.entries
           [Sample.entry "new-zero"] "/home/u/.ssh"
           ["/home/u/.ssh/google_sk_0"; "/home/u/.ssh/google_sk_1"]
           ["/home/u/.ssh/google_sk_0"] Sample.world Sample.world1 _ 1
           (Sample.entry "key-one")).
  - vm_compute. reflexivity.
  - vm_compute. reflexivity.
  - cbn. lia.
  - reflexivity.
Defined.

Lemma write_ssh_key_files_same_entries_again_witness :
  ∃ w2,
    write_ssh_key_files Sample.platform (VList Sample.entries) "/home/u/.ssh"
      Sample.world1
    = (Ok ["/home/u/.ssh/google_sk_0"; "/home/u/.ssh/google_sk_1"], w2) ∧
    files w2 = files Sample.world1 ∧
    stdout w2 = stdout Sample.world1.
Proof.
  apply (write_ssh_key_files_same_entries_again Sample.platform Sample.entries
           "/home/u/.ssh" _ Sample.world Sample.world1).
  vm_compute. reflexivity.
Defined.


Lemma main_writes_and_prints_witness :
  ∃ w',
    main Sample.platform (VStr "me") (VStr "1.2.3.4") None Sample.world = (Ok (), w') ∧
    stdout w' =
      "ssh -i /home/u/.ssh/google_sk_0 -i /home/u/.ssh/google_sk_1 alice@1.2.3.4"
      +:+ newline ∧
    files w' !! "/home/u/.ssh/google_sk_1" = Some (File "key-one" (octal 6 0 0)).
Proof.
  destruct (main_writes_and_prints Sample.platform Sample.profile
              (Sample.account "alice") Sample.entries
              [VDict (Sample.account "bob")] ["key-zero"; "key-one"]
              "alice" "1.2.3.4" (VStr "me") None Sample.world
              eq_refl eq_refl ltac:(repeat constructor) eq_refl eq_refl
              (λ i _, sample_accepts _ (or_introl eq_refl) i))
    as (w' & Hmain & Hout & Hfiles & _).
  exists w'. split_and!.
  - exact Hmain.
  - exact Hout.
  - exact (Hfiles 1 "key-one" eq_refl).
Defined.

Lemma main_without_posix_accounts_witness :
  main Cases.platform (VStr "noaccounts") (VStr "1.2.3.4") None Cases.world
  = (Raise TypeError, Cases.world) ∧
  main Cases.platform (VStr "emptyaccounts") (VStr "1.2.3.4") None Cases.world
  = (Raise IndexError, Cases.world).
Proof.
  split.
  - exact (proj1 (main_without_posix_accounts Cases.platform
                    Cases.profile_noaccounts (VStr "noaccounts") (VStr "1.2.3.4")
                    None Cases.world eq_refl) eq_refl).
  - exact (proj1 (proj2 (main_without_posix_accounts Cases.platform
                    Cases.profile_emptyaccounts (VStr "emptyaccounts")
                    (VStr "1.2.3.4") None Cases.world eq_refl)) eq_refl).
Defined.

Lemma main_missing_username_witness :
  stdout (main Cases.platform (VStr "anonymous") (VStr "1.2.3.4") None
            Cases.world).2
  = "ssh -i /home/u/.ssh/google_sk_0 -i /home/u/.ssh/google_sk_1 None@1.2.3.4"
    +:+ newline.
Proof.
  rewrite (main_missing_username Cases.platform Cases.profile_anonymous ∅
             [VDict (Sample.account "bob")] "1.2.3.4" (VStr "anonymous") None
             Cases.world eq_refl eq_refl eq_refl).
  vm_compute. reflexivity.
Defined.

